(** * JobUtils: the run-status projector and the job-state query fragment

    A shallow embedding of [js_modules/dagit/src/JobUtils.tsx].

    - [JS]      : the two bits of JavaScript evaluation the component relies
                  on (array indexing that may yield [undefined], member access
                  that throws on [undefined]), as a small completion monad.
    - [React]   : element descriptors as JSX builds them (type, props,
                  children), with the traversals used to state properties.
    - [GraphQL] : the abstract syntax of a fragment document, a lexer and
                  recursive-descent parser for the part of the query language
                  the template literal of the source is written in, and the
                  [gql] tag, which drops a definition it has already read.
    - [JobUtils]: [JobRunStatus] and [JOB_STATE_FRAGMENT] themselves. *)

From Stdlib Require Import String Ascii List ZArith Bool Arith Lia.
Import ListNotations.
Local Open Scope string_scope.
Local Open Scope list_scope.
Set Warnings "-register-all".

(* ------------------------------------------------------------------------- *)
(** ** JavaScript evaluation *)

Module JS.

Inductive Error : Type :=
| TypeError (msg : string)
| GraphQLError (msg : string).

(** The outcome of evaluating an expression: a value, or a thrown error. *)
Inductive Completion (A : Type) : Type :=
| Normal (a : A)
| Throw (e : Error).
Arguments Normal {A} a.
Arguments Throw {A} e.

Definition bind {A B : Type} (c : Completion A) (k : A -> Completion B)
  : Completion B :=
  match c with
  | Normal a => k a
  | Throw e => Throw e
  end.

(** [xs[i]]: an element, or [undefined] ([None]) past the end. *)
Definition index {A : Type} (xs : list A) (i : nat) : option A :=
  nth_error xs i.

(** [o.f]: reading a member of [undefined] throws a [TypeError]. *)
Definition member {A B : Type} (o : option A) (f : A -> B) (name : string)
  : Completion B :=
  match o with
  | Some a => Normal (f a)
  | None =>
      Throw (TypeError ("Cannot read property '" ++ name ++ "' of undefined"))
  end.

(** [!n] for a number [n] (here always an array length). *)
Definition not_number (n : nat) : bool := Nat.eqb n 0.

End JS.

Notation "x <- c ;; k" := (JS.bind c (fun x => k))
  (at level 61, c at next level, right associativity).

(* ------------------------------------------------------------------------- *)
(** ** React element descriptors *)

Module React.

Inductive PropValue : Type :=
| PString (s : string)
| PNumber (n : Z)
| PStyle (declarations : list (string * string)).

(** A lower-case JSX tag is a host element, a capitalised one refers to a
    component, which React calls only later, when it renders the tree. *)
Inductive ElementType : Type :=
| Host (tag : string)
| Component (name : string).

Inductive Node : Type :=
| Text (s : string)
| Element (type : ElementType) (props : list (string * PropValue))
          (children : list Node).

Definition ElementType_eqb (a b : ElementType) : bool :=
  match a, b with
  | Host x, Host y => String.eqb x y
  | Component x, Component y => String.eqb x y
  | _, _ => false
  end.

Definition hasType (t : ElementType) (n : Node) : bool :=
  match n with
  | Text _ => false
  | Element t' _ _ => ElementType_eqb t t'
  end.

Fixpoint lookup {V : Type} (key : string) (kvs : list (string * V))
  : option V :=
  match kvs with
  | [] => None
  | (k, v) :: rest => if String.eqb key k then Some v else lookup key rest
  end.

Definition prop (name : string) (n : Node) : option PropValue :=
  match n with
  | Text _ => None
  | Element _ props _ => lookup name props
  end.

(** The node itself followed by everything below it, in document order. *)
Fixpoint descendants (n : Node) : list Node :=
  n :: match n with
       | Text _ => []
       | Element _ _ children => flat_map descendants children
       end.

(** What the user reads: the text leaves, concatenated. *)
Fixpoint textContent (n : Node) : string :=
  match n with
  | Text s => s
  | Element _ _ children => String.concat "" (map textContent children)
  end.

Definition elementsOfType (t : ElementType) (n : Node) : list Node :=
  filter (hasType t) (descendants n).

End React.

(* ------------------------------------------------------------------------- *)
(** ** GraphQL fragment documents *)

Module GraphQL.

Inductive Value : Type :=
| IntValue (n : Z)
| EnumValue (s : string).

Inductive Selection : Type :=
| Field (name : string) (arguments : list (string * Value))
        (selectionSet : list Selection)
| FragmentSpread (name : string)
| InlineFragment (typeCondition : string) (selectionSet : list Selection).

(** A fragment definition as the parser hands it to the tag: its syntax, and
    in [source] the text it was read from, with every run of white space and
    commas collapsed to one space (what [cacheKeyFromLoc] computes from the
    location of the definition). *)
Record FragmentDefinition : Type := {
  fragmentName : string;
  onType : string;
  selections : list Selection;
  source : string
}.

Definition Document : Type := list FragmentDefinition.

(** *** Lexer

    Names, unsigned integers and the punctuators [{ } ( ) : ...]; white
    space and commas are insignificant.  Anything else is a syntax error. *)

Inductive Token : Type :=
| TName (s : string)
| TInt (n : Z)
| TSpread
| TBraceL
| TBraceR
| TParenL
| TParenR
| TColon.

Definition isDigit (c : ascii) : bool :=
  let n := nat_of_ascii c in (48 <=? n)%nat && (n <=? 57)%nat.

Definition isNameStart (c : ascii) : bool :=
  let n := nat_of_ascii c in
  ((65 <=? n)%nat && (n <=? 90)%nat)
  || ((97 <=? n)%nat && (n <=? 122)%nat)
  || (n =? 95)%nat.

Definition isNameContinue (c : ascii) : bool := isNameStart c || isDigit c.

Definition isIgnored (c : ascii) : bool :=
  let n := nat_of_ascii c in
  (n =? 32)%nat || (n =? 9)%nat || (n =? 10)%nat || (n =? 13)%nat
  || (n =? 44)%nat.

Definition punctuator (c : ascii) : option Token :=
  let n := nat_of_ascii c in
  if (n =? 123)%nat then Some TBraceL
  else if (n =? 125)%nat then Some TBraceR
  else if (n =? 40)%nat then Some TParenL
  else if (n =? 41)%nat then Some TParenR
  else if (n =? 58)%nat then Some TColon
  else None.

Definition digitsValue (cs : list ascii) : Z :=
  fold_left (fun acc c => (10 * acc + Z.of_nat (nat_of_ascii c - 48))%Z) cs 0%Z.

(** What the lexer is in the middle of: nothing, a name or number (its
    characters, last first), or a run of dots. *)
Inductive Pending : Type :=
| Idle
| Word (reversed : list ascii)
| Dots (n : nat).

Definition flush (p : Pending) : option (list Token) :=
  match p with
  | Idle => Some []
  | Word reversed =>
      let cs := rev reversed in
      match cs with
      | [] => Some []
      | c :: _ =>
          if isDigit c then
            if forallb isDigit cs then Some [TInt (digitsValue cs)] else None
          else Some [TName (string_of_list_ascii cs)]
      end
  | Dots _ => None
  end.

Definition emit (now : option (list Token)) (later : option (list Token))
  : option (list Token) :=
  match now, later with
  | Some a, Some b => Some (a ++ b)
  | _, _ => None
  end.

Fixpoint lex (s : string) (p : Pending) : option (list Token) :=
  match s with
  | EmptyString => flush p
  | String c rest =>
      if isNameContinue c then
        match p with
        | Idle => lex rest (Word [c])
        | Word w => lex rest (Word (c :: w))
        | Dots _ => None
        end
      else if (nat_of_ascii c =? 46)%nat then
        match p with
        | Dots 1 => lex rest (Dots 2)
        | Dots 2 => emit (Some [TSpread]) (lex rest Idle)
        | Dots _ => None
        | _ => emit (flush p) (lex rest (Dots 1))
        end
      else if isIgnored c then emit (flush p) (lex rest Idle)
      else
        match punctuator c with
        | Some t => emit (emit (flush p) (Some [t])) (lex rest Idle)
        | None => None
        end
  end.

(** *** The text of a definition *)

(** What [cacheKeyFromLoc] collapses: the white space of a regular
    expression's [\s] (in the ASCII range) and the comma. *)
Definition isSeparator (c : ascii) : bool :=
  let n := nat_of_ascii c in
  ((9 <=? n)%nat && (n <=? 13)%nat) || (n =? 32)%nat || (n =? 44)%nat.

(** Every run of separators becomes one space. *)
Fixpoint collapse (s : string) (inRun : bool) : string :=
  match s with
  | EmptyString => EmptyString
  | String c rest =>
      if isSeparator c then
        if inRun then collapse rest true
        else String " " (collapse rest true)
      else String c (collapse rest false)
  end.

Fixpoint trimStart (s : string) : string :=
  match s with
  | String c rest => if isSeparator c then trimStart rest else s
  | EmptyString => EmptyString
  end.

Fixpoint trimEnd (s : string) : string :=
  match s with
  | EmptyString => EmptyString
  | String c rest =>
      match trimEnd rest with
      | EmptyString =>
          if isSeparator c then EmptyString else String c EmptyString
      | kept => String c kept
      end
  end.

(** [string.replace(/[\s,]+/g, ' ').trim()] *)
Definition normalize (s : string) : string :=
  trimEnd (trimStart (collapse s false)).

(** The text of each definition of a document, in order: from the first
    significant character to the brace that closes the definition.
    [current] holds the characters of the definition being read, last
    first, and [depth] the number of braces open. *)
Fixpoint definitionSources (s : string) (depth : nat) (current : list ascii)
  : list string :=
  match s with
  | EmptyString =>
      match current with
      | [] => []
      | _ => [string_of_list_ascii (rev current)]
      end
  | String c rest =>
      match current with
      | [] =>
          if isIgnored c then definitionSources rest depth []
          else if (nat_of_ascii c =? 123)%nat
               then definitionSources rest (S depth) [c]
               else definitionSources rest depth [c]
      | _ =>
          if (nat_of_ascii c =? 123)%nat then
            definitionSources rest (S depth) (c :: current)
          else if (nat_of_ascii c =? 125)%nat then
            match depth with
            | 1 => string_of_list_ascii (rev (c :: current))
                   :: definitionSources rest 0 []
            | _ => definitionSources rest (pred depth) (c :: current)
            end
          else definitionSources rest depth (c :: current)
      end
  end.

(** *** Parser

    Fragment definitions whose selections are fields (with optional integer
    or enumeration arguments and optional sub-selections), fragment spreads
    and inline fragments with a type condition. *)

Fixpoint parseArguments (ts : list Token)
  : option (list (string * Value) * list Token) :=
  match ts with
  | TParenR :: rest => Some ([], rest)
  | TName n :: TColon :: TInt v :: rest =>
      match parseArguments rest with
      | Some (args, rest') => Some ((n, IntValue v) :: args, rest')
      | None => None
      end
  | TName n :: TColon :: TName v :: rest =>
      match parseArguments rest with
      | Some (args, rest') => Some ((n, EnumValue v) :: args, rest')
      | None => None
      end
  | _ => None
  end.

(** A parenthesised or braced group may not be empty. *)
Definition nonEmpty {A : Type} (r : option (list A * list Token))
  : option (list A * list Token) :=
  match r with
  | Some ([], _) => None
  | _ => r
  end.

(** Parses the selections that follow an opening brace, up to and including
    the matching closing brace. *)
Fixpoint parseSelections (fuel : nat) (ts : list Token)
  : option (list Selection * list Token) :=
  match fuel with
  | O => None
  | S fuel' =>
      match ts with
      | TBraceR :: rest => Some ([], rest)
      | TSpread :: TName n :: rest =>
          if String.eqb n "on" then
            match rest with
            | TName ty :: TBraceL :: rest0 =>
                match nonEmpty (parseSelections fuel' rest0) with
                | Some (inner, rest1) =>
                    match parseSelections fuel' rest1 with
                    | Some (more, rest2) =>
                        Some (InlineFragment ty inner :: more, rest2)
                    | None => None
                    end
                | None => None
                end
            | _ => None
            end
          else
            match parseSelections fuel' rest with
            | Some (more, rest1) => Some (FragmentSpread n :: more, rest1)
            | None => None
            end
      | TName n :: rest =>
          let arguments :=
            match rest with
            | TParenL :: rest0 => nonEmpty (parseArguments rest0)
            | _ => Some ([], rest)
            end in
          match arguments with
          | Some (args, rest1) =>
              let inner :=
                match rest1 with
                | TBraceL :: rest0 => nonEmpty (parseSelections fuel' rest0)
                | _ => Some ([], rest1)
                end in
              match inner with
              | Some (sub, rest2) =>
                  match parseSelections fuel' rest2 with
                  | Some (more, rest3) => Some (Field n args sub :: more, rest3)
                  | None => None
                  end
              | None => None
              end
          | None => None
          end
      | _ => None
      end
  end.

(** Parses the definitions of a document; [texts] are the normalized texts
    of the definitions still to be read, in order. *)
Fixpoint parseDefinitions (fuel : nat) (ts : list Token) (texts : list string)
  : option Document :=
  match fuel with
  | O => None
  | S fuel' =>
      match ts with
      | [] => Some []
      | TName kw :: TName n :: TName on :: TName ty :: TBraceL :: rest =>
          if String.eqb kw "fragment" && String.eqb on "on" then
            match nonEmpty (parseSelections (length rest) rest), texts with
            | Some (sels, rest1), text :: texts' =>
                match parseDefinitions fuel' rest1 texts' with
                | Some defs =>
                    Some ({| fragmentName := n; onType := ty;
                             selections := sels; source := text |} :: defs)
                | None => None
                end
            | _, _ => None
            end
          else None
      | _ => None
      end
  end.

Definition parse (text : string) : option Document :=
  match lex text Idle with
  | Some ts =>
      match parseDefinitions (S (length ts)) ts
              (map normalize (definitionSources text 0 [])) with
      | Some [] => None
      | r => r
      end
  | None => None
  end.

(** *** The [gql] tag *)

Section ListEqb.
Context {A : Type} (eqb : A -> A -> bool).

Fixpoint list_eqb (xs ys : list A) : bool :=
  match xs, ys with
  | [], [] => true
  | x :: xs', y :: ys' => eqb x y && list_eqb xs' ys'
  | _, _ => false
  end.

End ListEqb.

Definition Value_eqb (a b : Value) : bool :=
  match a, b with
  | IntValue m, IntValue n => Z.eqb m n
  | EnumValue s, EnumValue t => String.eqb s t
  | _, _ => false
  end.

Definition argument_eqb (a b : string * Value) : bool :=
  String.eqb (fst a) (fst b) && Value_eqb (snd a) (snd b).

Fixpoint Selection_eqb (a b : Selection) : bool :=
  match a, b with
  | Field n args sub, Field n' args' sub' =>
      String.eqb n n' && list_eqb argument_eqb args args'
      && list_eqb Selection_eqb sub sub'
  | FragmentSpread n, FragmentSpread n' => String.eqb n n'
  | InlineFragment ty sub, InlineFragment ty' sub' =>
      String.eqb ty ty' && list_eqb Selection_eqb sub sub'
  | _, _ => false
  end.

(** The same text and the same syntax.  The tag compares the texts only; a
    text has one parse, so for definitions that were read from their texts
    the two tests agree, and this one asks nothing of the documents. *)
Definition FragmentDefinition_eqb (a b : FragmentDefinition) : bool :=
  String.eqb (source a) (source b)
  && String.eqb (fragmentName a) (fragmentName b)
  && String.eqb (onType a) (onType b)
  && list_eqb Selection_eqb (selections a) (selections b).

(** [processFragments]: the definitions in order, without those already
    [seen] earlier in the document. *)
Fixpoint processFragments (seen : list FragmentDefinition) (defs : Document)
  : Document :=
  match defs with
  | [] => []
  | d :: rest =>
      if existsb (FragmentDefinition_eqb d) seen
      then processFragments seen rest
      else d :: processFragments (d :: seen) rest
  end.

(** The [gql] template tag.  It joins the literal text and the source texts
    of the documents interpolated into it, parses the whole and keeps the
    first occurrence of every definition: here the definitions of the
    literal, followed by the definitions read back from each interpolated
    document in the order they are written, then [processFragments].  Text
    that does not parse throws when the module is loaded. *)
Definition gql (literal : string) (embedded : list Document)
  : JS.Completion Document :=
  match parse literal with
  | Some defs => JS.Normal (processFragments [] (defs ++ concat embedded))
  | None => JS.Throw (JS.GraphQLError "Syntax Error")
  end.

(** *** Reading a selection set *)

(** The fields declared directly in a selection set, in order. *)
Fixpoint fieldNames (sels : list Selection) : list string :=
  match sels with
  | [] => []
  | Field n _ _ :: rest => n :: fieldNames rest
  | _ :: rest => fieldNames rest
  end.

(** The fragments spread directly in a selection set. *)
Fixpoint directSpreads (sels : list Selection) : list string :=
  match sels with
  | [] => []
  | FragmentSpread n :: rest => n :: directSpreads rest
  | _ :: rest => directSpreads rest
  end.

(** The first field of that name in a selection set. *)
Fixpoint field (n : string) (sels : list Selection) : option Selection :=
  match sels with
  | [] => None
  | Field n' args sub :: rest =>
      if String.eqb n n' then Some (Field n' args sub) else field n rest
  | _ :: rest => field n rest
  end.

Definition argumentsOf (s : Selection) : list (string * Value) :=
  match s with
  | Field _ args _ => args
  | _ => []
  end.

Definition selectionSetOf (s : Selection) : list Selection :=
  match s with
  | Field _ _ sub => sub
  | FragmentSpread _ => []
  | InlineFragment _ sub => sub
  end.

(** Every selection set of a selection: its own, if it has one, and those
    nested in it. *)
Fixpoint nestedSets (s : Selection) : list (list Selection) :=
  match s with
  | Field _ _ [] => []
  | Field _ _ sub => sub :: flat_map nestedSets sub
  | FragmentSpread _ => []
  | InlineFragment _ sub => sub :: flat_map nestedSets sub
  end.

(** A selection set and every selection set nested in it: the nesting
    levels of a fragment body. *)
Definition levels (sels : list Selection) : list (list Selection) :=
  sels :: flat_map nestedSets sels.

(** Fields and spreads at any depth. *)
Definition allFieldNames (sels : list Selection) : list string :=
  flat_map fieldNames (levels sels).

Definition allSpreads (sels : list Selection) : list string :=
  flat_map directSpreads (levels sels).

Definition documentFieldNames (d : Document) : list string :=
  flat_map (fun f => allFieldNames (selections f)) d.

Fixpoint hasDuplicate (xs : list string) : bool :=
  match xs with
  | [] => false
  | x :: rest => existsb (String.eqb x) rest || hasDuplicate rest
  end.

(** Induction on a selection that reaches the selections nested in it. *)
Section SelectionInduction.
Variable P : Selection -> Prop.
Hypothesis onField :
  forall n args sub, Forall P sub -> P (Field n args sub).
Hypothesis onSpread : forall n, P (FragmentSpread n).
Hypothesis onInline :
  forall ty sub, Forall P sub -> P (InlineFragment ty sub).

Fixpoint Selection_nested_ind (s : Selection) : P s :=
  let each :=
    fix each (l : list Selection) : Forall P l :=
      match l with
      | [] => Forall_nil P
      | x :: l' => Forall_cons x (Selection_nested_ind x) (each l')
      end in
  match s with
  | Field n args sub => onField n args sub (each sub)
  | FragmentSpread n => onSpread n
  | InlineFragment ty sub => onInline ty sub (each sub)
  end.

End SelectionInduction.

End GraphQL.

(* ------------------------------------------------------------------------- *)
(** ** JobUtils.tsx *)

Module JobUtils.
Import JS React GraphQL.

(** Modelled from the spec: the generated type [JobStateFragment] of
    [src/types/JobStateFragment], which the source only imports.  The fields
    are those of section 3 of the specification, which are also the ones the
    fragment below selects; enumeration values are the strings GraphQL
    delivers, and the payloads owned by the origin and tick-tag collaborators
    are type parameters. *)
Record JobStateFragment_runs : Type := {
  run_id : string;
  runId : string;
  run_status : string
}.

Inductive JobStateFragment_jobSpecificData : Type :=
| SensorJobData (lastRunKey : option string)
| ScheduleJobData (cronSchedule : string).

Record JobStateFragment (RepositoryOriginFragment TickTagFragment : Type)
  : Type := {
  id : string;
  name : string;
  jobType : string;
  status : string;
  repositoryOrigin : RepositoryOriginFragment;
  jobSpecificData : option JobStateFragment_jobSpecificData;
  runs : list JobStateFragment_runs;
  ticks : list (string * TickTagFragment);
  runningCount : Z
}.
Arguments id {_ _} _.
Arguments name {_ _} _.
Arguments jobType {_ _} _.
Arguments status {_ _} _.
Arguments repositoryOrigin {_ _} _.
Arguments jobSpecificData {_ _} _.
Arguments runs {_ _} _.
Arguments ticks {_ _} _.
Arguments runningCount {_ _} _.

(** The same snapshot with another [runs] sequence. *)
Definition withRuns {R T : Type} (jobState : JobStateFragment R T)
  (rs : list JobStateFragment_runs) : JobStateFragment R T :=
  {| id := id jobState;
     name := name jobState;
     jobType := jobType jobState;
     status := status jobState;
     repositoryOrigin := repositoryOrigin jobState;
     jobSpecificData := jobSpecificData jobState;
     runs := rs;
     ticks := ticks jobState;
     runningCount := runningCount jobState |}.

(** The argument of [titleForRun]: an object with a [runId] member. *)
Record RunTitleArg : Type := { arg_runId : string }.

(** The text of the template literal of [JOB_STATE_FRAGMENT], up to its
    first interpolation. *)
Definition JOB_STATE_FRAGMENT_literal : string := "
  fragment JobStateFragment on JobState {
    id
    name
    jobType
    status
    repositoryOrigin {
      ...RepositoryOriginFragment
    }
    jobSpecificData {
      ... on SensorJobData {
        lastRunKey
      }
      ... on ScheduleJobData {
        cronSchedule
      }
    }
    runs(limit: 1) {
      id
      runId
      status
    }
    status
    ticks(limit: 1) {
      id
      ...TickTagFragment
    }
    runningCount
  }
  ".

(** The fragment definition that text denotes. *)
Definition JobStateFragment_definition : FragmentDefinition :=
  {| fragmentName := "JobStateFragment";
     onType := "JobState";
     selections :=
       [ Field "id" [] [];
         Field "name" [] [];
         Field "jobType" [] [];
         Field "status" [] [];
         Field "repositoryOrigin" [] [FragmentSpread "RepositoryOriginFragment"];
         Field "jobSpecificData" []
           [ InlineFragment "SensorJobData" [Field "lastRunKey" [] []];
             InlineFragment "ScheduleJobData" [Field "cronSchedule" [] []] ];
         Field "runs" [("limit", IntValue 1)]
           [Field "id" [] []; Field "runId" [] []; Field "status" [] []];
         Field "status" [] [];
         Field "ticks" [("limit", IntValue 1)]
           [Field "id" [] []; FragmentSpread "TickTagFragment"];
         Field "runningCount" [] [] ];
     source :=
       "fragment JobStateFragment on JobState { id name jobType status repositoryOrigin { ...RepositoryOriginFragment } jobSpecificData { ... on SensorJobData { lastRunKey } ... on ScheduleJobData { cronSchedule } } runs(limit: 1) { id runId status } status ticks(limit: 1) { id ...TickTagFragment } runningCount }"
  |}.

(** The six fields the specification lists for the view itself. *)
Definition ownFields : list string :=
  ["id"; "name"; "jobType"; "status"; "jobSpecificData"; "runningCount"].

(** *** Sample inputs

    Concrete snapshots and collaborators on which the statements below are
    exercised.  Nothing is assumed about the real collaborators: every
    theorem holds for all of them. *)

Definition sampleRun : JobStateFragment_runs :=
  {| run_id := "r1"; runId := "abc123"; run_status := "SUCCESS" |}.

Definition olderRun : JobStateFragment_runs :=
  {| run_id := "r0"; runId := "9f8e7d"; run_status := "FAILURE" |}.

Definition sampleJob (rs : list JobStateFragment_runs)
  : JobStateFragment unit unit :=
  {| id := "j1"; name := "hourly_sensor"; jobType := "SENSOR";
     status := "RUNNING"; repositoryOrigin := tt;
     jobSpecificData := Some (SensorJobData None);
     runs := rs; ticks := []; runningCount := 0%Z |}.

Definition otherJob (rs : list JobStateFragment_runs)
  : JobStateFragment unit unit :=
  {| id := "j2"; name := "nightly"; jobType := "SCHEDULE";
     status := "STOPPED"; repositoryOrigin := tt;
     jobSpecificData := Some (ScheduleJobData "0 0 * * *");
     runs := rs; ticks := [("t1", tt)]; runningCount := 3%Z |}.

Definition sampleTitle (run : RunTitleArg) : string :=
  substring 0 3 (arg_runId run).

Definition sampleOrigin : Document :=
  [ {| fragmentName := "RepositoryOriginFragment";
       onType := "RepositoryOrigin";
       selections :=
         [Field "repositoryLocationName" [] []; Field "repositoryName" [] []];
       source :=
         "fragment RepositoryOriginFragment on RepositoryOrigin { repositoryLocationName repositoryName }"
    |} ].

Definition samplePythonError : Document :=
  [ {| fragmentName := "PythonErrorFragment";
       onType := "PythonError";
       selections := [Field "message" [] []; Field "stack" [] []];
       source := "fragment PythonErrorFragment on PythonError { message stack }"
    |} ].

Definition sampleTickTag : Document :=
  [ {| fragmentName := "TickTagFragment";
       onType := "JobTick";
       selections :=
         [ Field "timestamp" [] [];
           Field "error" [] [FragmentSpread "PythonErrorFragment"] ];
       source :=
         "fragment TickTagFragment on JobTick { timestamp error { ...PythonErrorFragment } }"
    |} ].

(** A tick-tag document that spreads no other fragment. *)
Definition plainTickTag : Document :=
  [ {| fragmentName := "TickTagFragment";
       onType := "JobTick";
       selections := [Field "timestamp" [] []];
       source := "fragment TickTagFragment on JobTick { timestamp }" |} ].

(** A second title formatter, which agrees with [sampleTitle] on the run id
    of [sampleRun] and on no other. *)
Definition otherTitle (run : RunTitleArg) : string :=
  if String.eqb (arg_runId run) "abc123" then "abc" else "?".

(** *** What the statements below speak of *)

(** What a snapshot offers the view: the status and the run id of its first
    run, if it has one. *)
Definition viewKey {R T : Type} (jobState : JobStateFragment R T)
  : option (string * string) :=
  option_map (fun run => (run_status run, runId run))
             (index (runs jobState) 0).

(** The fragments a document defines, and those it spreads anywhere. *)
Definition definedFragments (d : Document) : list string :=
  map fragmentName d.

Definition documentSpreads (d : Document) : list string :=
  flat_map (fun f => allSpreads (selections f)) d.

Section Collaborators.

(** Owned by the origin-display and tick-tag collaborators. *)
Variables RepositoryOriginFragment TickTagFragment : Type.

(** [Colors.GRAY4] of the design system and [FontFamily.monospace]. *)
Variables Colors_GRAY4 FontFamily_monospace : string.

(** [titleForRun] of [src/runs/RunUtils]: a pure function from the object it
    is given to the title to display. *)
Variable titleForRun : RunTitleArg -> string.

(** The documents interpolated into the template literal. *)
Variables REPOSITORY_ORIGIN_FRAGMENT PythonErrorFragment TICK_TAG_FRAGMENT
  : Document.

(** The snapshots the component receives. *)
Definition JobState : Type :=
  JobStateFragment RepositoryOriginFragment TickTagFragment.

(** [<span style={{color: Colors.GRAY4}}>None</span>] *)
Definition emptyState : Node :=
  Element (Host "span") [("style", PStyle [("color", Colors_GRAY4)])]
          [Text "None"].

(** The [<Group>] of the second [return], given the three values read from
    [run]: its [status], and its [runId] for the link and for the title. *)
Definition runState (st linkId titleId : string) : Node :=
  Element (Component "Group")
    [ ("direction", PString "row"); ("spacing", PNumber 4);
      ("alignItems", PString "center") ]
    [ Element (Component "RunStatus") [("status", PString st)] [];
      Element (Component "Link")
        [ ("to", PString ("/instance/runs/" ++ linkId));
          ("target", PString "_blank"); ("rel", PString "noreferrer") ]
        [ Element (Host "span")
            [("style", PStyle [("fontFamily", FontFamily_monospace)])]
            [Text (titleForRun {| arg_runId := titleId |})] ] ].

Definition JobRunStatus (jobState : JobState) : Completion Node :=
  if not_number (length (runs jobState)) then
    Normal emptyState
  else
    let run := index (runs jobState) 0 in
    st <- member run run_status "status" ;;
    linkId <- member run runId "runId" ;;
    titleId <- member run runId "runId" ;;
    Normal (runState st linkId titleId).

Definition JOB_STATE_FRAGMENT : Completion Document :=
  gql JOB_STATE_FRAGMENT_literal
      [REPOSITORY_ORIGIN_FRAGMENT; PythonErrorFragment; TICK_TAG_FRAGMENT].

(** Whether every definition of an interpolated document is spread somewhere
    in a fragment body. *)
Definition spreadsAll (body : list Selection) (d : Document) : bool :=
  forallb (fun f => existsb (String.eqb (fragmentName f)) (allSpreads body)) d.

(* ------------------------------------------------------------------------- *)
(** ** Properties of the projector *)

Lemma JobRunStatus_nil (jobState : JobState) :
  runs jobState = [] -> JobRunStatus jobState = Normal emptyState.
Proof.
  intros H. unfold JobRunStatus. rewrite H. reflexivity.
Qed.

Lemma JobRunStatus_cons (jobState : JobState) run later :
  runs jobState = run :: later ->
  JobRunStatus jobState
  = Normal (runState (run_status run) (runId run) (runId run)).
Proof.
  intros H. unfold JobRunStatus. rewrite H. reflexivity.
Qed.

(** [runs[0]] is defined exactly when [runs] has a first element. *)
Lemma index_0_inv {A : Type} (xs : list A) (x : A) :
  index xs 0 = Some x -> exists later, xs = x :: later.
Proof.
  destruct xs as [|y ys]; simpl; intros H; [discriminate|].
  injection H as ->. now exists ys.
Qed.

Lemma JobRunStatus_first (jobState : JobState) run :
  index (runs jobState) 0 = Some run ->
  JobRunStatus jobState
  = Normal (runState (run_status run) (runId run) (runId run)).
Proof.
  intros H. destruct (index_0_inv _ _ H) as [later E].
  exact (JobRunStatus_cons jobState run later E).
Qed.

(** C1. When [runs] is not empty, that is when [runs[0]] is some [run], the
    projector returns a view that contains a [RunStatus] element whose
    [status] is [run.status] and a [Link] whose target is the run page of
    [run.runId] and whose visible text is [titleForRun] applied to
    [run.runId]. *)
Theorem JobRunStatus_shows_first_run (jobState : JobState) run :
  index (runs jobState) 0 = Some run ->
  exists out badge link,
    JobRunStatus jobState = Normal out
    /\ In badge (descendants out)
    /\ hasType (Component "RunStatus") badge = true
    /\ prop "status" badge = Some (PString (run_status run))
    /\ In link (descendants out)
    /\ hasType (Component "Link") link = true
    /\ prop "to" link = Some (PString ("/instance/runs/" ++ runId run))
    /\ textContent link = titleForRun {| arg_runId := runId run |}.
Proof.
  intros H. apply JobRunStatus_first in H.
  eexists. eexists. eexists.
  split; [exact H|].
  split; [simpl; right; left; reflexivity|].
  split; [reflexivity|].
  split; [reflexivity|].
  split; [simpl; right; right; left; reflexivity|].
  split; [reflexivity|].
  split; reflexivity.
Qed.

(** C2. When [runs] is empty the projector returns the empty state, whatever
    the other fields are: a span in the muted colour whose text is "None",
    made of that span and its text only, so with no link and no status
    badge in it. *)
Theorem JobRunStatus_empty_state (jobState : JobState) :
  runs jobState = [] ->
  JobRunStatus jobState = Normal emptyState
  /\ emptyState
     = Element (Host "span") [("style", PStyle [("color", Colors_GRAY4)])]
               [Text "None"]
  /\ textContent emptyState = "None"
  /\ descendants emptyState = [emptyState; Text "None"]
  /\ elementsOfType (Component "Link") emptyState = []
  /\ elementsOfType (Host "a") emptyState = []
  /\ elementsOfType (Component "RunStatus") emptyState = [].
Proof.
  intros H. split; [exact (JobRunStatus_nil jobState H)|].
  repeat split.
Qed.

(** C3. With more than one element in [runs], the projector returns what it
    returns on the same snapshot with [runs] cut down to [[runs[0]]]; more
    generally the elements after the first may be replaced by any others, in
    any order, without changing the result. *)
Theorem JobRunStatus_ignores_later_runs (jobState : JobState) run :
  1 < length (runs jobState) ->
  index (runs jobState) 0 = Some run ->
  JobRunStatus jobState = JobRunStatus (withRuns jobState [run])
  /\ forall later,
       JobRunStatus (withRuns jobState (run :: later)) = JobRunStatus jobState.
Proof.
  intros _ H. rewrite (JobRunStatus_first jobState run H).
  split; [symmetry|intros later];
    eapply JobRunStatus_cons; reflexivity.
Qed.

(** C6. The projector returns normally on every snapshot: it never throws,
    and what it returns is one of its two views, the empty state when [runs]
    is empty and the run state of [runs[0]] otherwise. *)
Theorem JobRunStatus_total (jobState : JobState) :
  exists out,
    JobRunStatus jobState = Normal out
    /\ (forall e, JobRunStatus jobState <> Throw e)
    /\ ((runs jobState = [] /\ out = emptyState)
        \/ (exists run,
              index (runs jobState) 0 = Some run
              /\ out = runState (run_status run) (runId run) (runId run))).
Proof.
  destruct (runs jobState) as [|run later] eqn:E.
  - exists emptyState. rewrite (JobRunStatus_nil jobState E).
    split; [reflexivity|]. split; [discriminate|]. now left.
  - eexists. rewrite (JobRunStatus_cons jobState run later E).
    split; [reflexivity|]. split; [discriminate|].
    right. exists run. now split.
Qed.

(** C7. When [runs] is not empty the view has a link, every link in it is a
    [Link] element (there is no bare anchor), and every one of them has
    [target="_blank"]: it opens in a new browsing context. *)
Theorem JobRunStatus_link_new_context (jobState : JobState) run :
  index (runs jobState) 0 = Some run ->
  exists out,
    JobRunStatus jobState = Normal out
    /\ elementsOfType (Component "Link") out <> []
    /\ elementsOfType (Host "a") out = []
    /\ forall link,
         In link (elementsOfType (Component "Link") out) ->
         prop "target" link = Some (PString "_blank").
Proof.
  intros H. eexists. split; [exact (JobRunStatus_first jobState run H)|].
  split; [discriminate|]. split; [reflexivity|].
  intros link [<-|[]]. reflexivity.
Qed.

(** C8. When [runs] is not empty the view has exactly one link, and its
    target is the string "/instance/runs/" followed by [runs[0].runId]. *)
Theorem JobRunStatus_link_target (jobState : JobState) run :
  index (runs jobState) 0 = Some run ->
  exists out link,
    JobRunStatus jobState = Normal out
    /\ elementsOfType (Component "Link") out = [link]
    /\ prop "to" link = Some (PString ("/instance/runs/" ++ runId run)).
Proof.
  intros H. eexists. eexists.
  split; [exact (JobRunStatus_first jobState run H)|].
  split; reflexivity.
Qed.

(** C9. Two snapshots with the same [runs] give the same result, whatever
    their other fields are. *)
Theorem JobRunStatus_depends_only_on_runs (a b : JobState) :
  runs a = runs b -> JobRunStatus a = JobRunStatus b.
Proof.
  intros H. unfold JobRunStatus. now rewrite H.
Qed.

(* ------------------------------------------------------------------------- *)
(** ** Properties of the fragment *)

(** The text of the template literal is one fragment definition. *)
Lemma parse_JOB_STATE_FRAGMENT_literal :
  parse JOB_STATE_FRAGMENT_literal = Some [JobStateFragment_definition].
Proof. vm_compute. reflexivity. Qed.

(** *** What [processFragments] keeps *)

Lemma list_eqb_eq {A : Type} (eqb : A -> A -> bool) (xs : list A) :
  Forall (fun x => forall y, eqb x y = true <-> x = y) xs ->
  forall ys, list_eqb eqb xs ys = true <-> xs = ys.
Proof.
  induction 1 as [|x xs Hx _ IH]; intros [|y ys]; simpl;
    try (split; [discriminate|discriminate]); [tauto|].
  rewrite andb_true_iff, Hx, IH.
  split; [intros [-> ->]; reflexivity|intros E; injection E; auto].
Qed.

Lemma Value_eqb_eq (a b : Value) : Value_eqb a b = true <-> a = b.
Proof.
  destruct a, b; simpl; try (split; discriminate).
  - rewrite Z.eqb_eq. split; [now intros ->|now intros [= ->]].
  - rewrite String.eqb_eq. split; [now intros ->|now intros [= ->]].
Qed.

Lemma argument_eqb_eq (a b : string * Value) :
  argument_eqb a b = true <-> a = b.
Proof.
  destruct a as [k v], b as [k' v']. unfold argument_eqb. simpl.
  rewrite andb_true_iff, String.eqb_eq, Value_eqb_eq.
  split; [intros [-> ->]; reflexivity|intros E; injection E; auto].
Qed.

Lemma arguments_eqb_eq (xs ys : list (string * Value)) :
  list_eqb argument_eqb xs ys = true <-> xs = ys.
Proof.
  apply list_eqb_eq. apply Forall_forall. intros x _ y.
  apply argument_eqb_eq.
Qed.

Lemma Selection_eqb_eq (a : Selection) :
  forall b, Selection_eqb a b = true <-> a = b.
Proof.
  induction a as [n args sub IH|n|ty sub IH] using Selection_nested_ind;
    intros [n' args' sub'|n'|ty' sub']; simpl;
    try (split; discriminate).
  - rewrite !andb_true_iff, String.eqb_eq, arguments_eqb_eq,
      (list_eqb_eq Selection_eqb sub IH).
    split; [intros [[-> ->] ->]; reflexivity|intros E; injection E; auto].
  - rewrite String.eqb_eq. split; [now intros ->|now intros [= ->]].
  - rewrite andb_true_iff, String.eqb_eq,
      (list_eqb_eq Selection_eqb sub IH).
    split; [intros [-> ->]; reflexivity|intros E; injection E; auto].
Qed.

Lemma FragmentDefinition_eqb_eq (a b : FragmentDefinition) :
  FragmentDefinition_eqb a b = true <-> a = b.
Proof.
  destruct a as [n t sels src], b as [n' t' sels' src'].
  unfold FragmentDefinition_eqb. simpl.
  rewrite !andb_true_iff, !String.eqb_eq.
  rewrite (list_eqb_eq Selection_eqb sels).
  - split; [intros [[[-> ->] ->] ->]; reflexivity|].
    intros E. injection E. auto.
  - apply Forall_forall. intros x _. apply Selection_eqb_eq.
Qed.

Lemma seen_iff (d : FragmentDefinition) (seen : list FragmentDefinition) :
  existsb (FragmentDefinition_eqb d) seen = true <-> In d seen.
Proof.
  rewrite existsb_exists. split.
  - intros (x & Hx & E). apply FragmentDefinition_eqb_eq in E. now subst.
  - intros H. exists d. split; [exact H|].
    now apply FragmentDefinition_eqb_eq.
Qed.

(** A definition is kept exactly when it is in the document and was not
    seen before. *)
Lemma processFragments_In (d : FragmentDefinition) (defs : Document) :
  forall seen,
    In d (processFragments seen defs) <-> In d defs /\ ~ In d seen.
Proof.
  induction defs as [|x rest IH]; intros seen; simpl; [tauto|].
  destruct (existsb (FragmentDefinition_eqb x) seen) eqn:E.
  - apply seen_iff in E. rewrite IH. split.
    + tauto.
    + intros [[->|H] Hn]; [contradiction|tauto].
  - assert (~ In x seen) as Hx.
    { intros H. apply seen_iff in H. rewrite H in E. discriminate. }
    simpl. rewrite IH. simpl. split.
    + intros [->|[H Hn]]; [tauto|tauto].
    + intros [[->|H] Hn]; [tauto|].
      destruct (FragmentDefinition_eqb x d) eqn:Ed.
      * apply FragmentDefinition_eqb_eq in Ed. tauto.
      * right. split; [exact H|]. intros [->|H']; [|tauto].
        assert (FragmentDefinition_eqb d d = true) as R
          by now apply FragmentDefinition_eqb_eq.
        rewrite R in Ed. discriminate.
Qed.

(** No definition is kept twice. *)
Lemma processFragments_NoDup (defs : Document) :
  forall seen, NoDup (processFragments seen defs).
Proof.
  induction defs as [|x rest IH]; intros seen; simpl; [constructor|].
  destruct (existsb (FragmentDefinition_eqb x) seen); [apply IH|].
  constructor; [|apply IH].
  rewrite processFragments_In. simpl. tauto.
Qed.

(** A document without repeats, none of them seen before, is kept as it
    is. *)
Lemma processFragments_fresh (defs : Document) :
  forall seen,
    NoDup defs -> (forall d, In d defs -> ~ In d seen) ->
    processFragments seen defs = defs.
Proof.
  induction defs as [|x rest IH]; intros seen Hnd Hfresh; simpl;
    [reflexivity|].
  inversion Hnd as [|? ? Hx Hrest]; subst.
  destruct (existsb (FragmentDefinition_eqb x) seen) eqn:E.
  - apply seen_iff in E. exfalso. apply (Hfresh x); simpl; tauto.
  - f_equal. apply IH; [exact Hrest|].
    intros d Hd [->|Hs]; [contradiction|].
    apply (Hfresh d); simpl; tauto.
Qed.



(** Reading on after a first part: what was kept of it has been seen. *)
Lemma processFragments_app (a b : Document) :
  forall seen,
    processFragments seen (a ++ b)
    = processFragments seen a
        ++ processFragments (rev (processFragments seen a) ++ seen) b.
Proof.
  induction a as [|x a IH]; intros seen; simpl; [reflexivity|].
  destruct (existsb (FragmentDefinition_eqb x) seen); [apply IH|].
  simpl. rewrite IH, <- app_assoc. reflexivity.
Qed.

(** Definitions that went through [processFragments] once read back as the
    definitions they came from. *)
Lemma processFragments_again (defs : Document) :
  forall before seen,
    incl before seen ->
    processFragments seen (processFragments before defs)
    = processFragments seen defs.
Proof.
  induction defs as [|x rest IH]; intros before seen Hincl; simpl;
    [reflexivity|].
  destruct (existsb (FragmentDefinition_eqb x) before) eqn:Eb.
  - apply seen_iff in Eb. apply Hincl, seen_iff in Eb. rewrite Eb.
    now apply IH.
  - simpl. destruct (existsb (FragmentDefinition_eqb x) seen) eqn:Es.
    + apply IH. intros d [<-|Hd]; [now apply seen_iff|now apply Hincl].
    + f_equal. apply IH.
      intros d [<-|Hd]; [now left|right; now apply Hincl].
Qed.

Lemma processFragments_app_again (a rest : Document) :
  forall seen,
    processFragments seen (processFragments [] a ++ rest)
    = processFragments seen (a ++ rest).
Proof.
  intros seen. rewrite !processFragments_app.
  now rewrite (processFragments_again a [] seen (incl_nil_l _)).
Qed.

(** So the tag gives the same document whether an interpolated document is
    handed over as the definitions of its source text or as the definitions
    the tag made of them. *)
Lemma gql_reads_back (literal : string) (a b c : Document) :
  gql literal [processFragments [] a; processFragments [] b;
               processFragments [] c]
  = gql literal [a; b; c].
Proof.
  unfold gql. destruct (parse literal) as [defs|]; [|reflexivity].
  f_equal. cbn [concat].
  rewrite !(processFragments_app defs). f_equal.
  rewrite processFragments_app_again.
  rewrite !(processFragments_app a). f_equal.
  rewrite processFragments_app_again.
  rewrite !(processFragments_app b). f_equal.
  apply processFragments_app_again.
Qed.

(** The composed document: the view's own definition, then the definitions
    of the three interpolated documents in the order of the source, each
    kept where it is first read. *)
Lemma JOB_STATE_FRAGMENT_composed :
  JOB_STATE_FRAGMENT
  = Normal (JobStateFragment_definition
              :: processFragments [JobStateFragment_definition]
                   (REPOSITORY_ORIGIN_FRAGMENT
                      ++ PythonErrorFragment ++ TICK_TAG_FRAGMENT)).
Proof.
  unfold JOB_STATE_FRAGMENT, gql.
  rewrite parse_JOB_STATE_FRAGMENT_literal.
  cbn [app concat processFragments existsb]. now rewrite app_nil_r.
Qed.

(** The composed document holds the view's own definition and the
    definitions of the interpolated documents, and nothing else. *)
Lemma JOB_STATE_FRAGMENT_In (d : FragmentDefinition) :
  In d (JobStateFragment_definition
          :: processFragments [JobStateFragment_definition]
               (REPOSITORY_ORIGIN_FRAGMENT
                  ++ PythonErrorFragment ++ TICK_TAG_FRAGMENT))
  <-> d = JobStateFragment_definition
      \/ In d (REPOSITORY_ORIGIN_FRAGMENT
                 ++ PythonErrorFragment ++ TICK_TAG_FRAGMENT).
Proof.
  simpl. rewrite processFragments_In. simpl.
  destruct (FragmentDefinition_eqb JobStateFragment_definition d) eqn:E.
  - apply FragmentDefinition_eqb_eq in E. split; intros _; left; auto.
  - assert (JobStateFragment_definition <> d) as Hne.
    { intros <-. assert (FragmentDefinition_eqb JobStateFragment_definition
                           JobStateFragment_definition = true) as R
        by now apply FragmentDefinition_eqb_eq.
      rewrite R in E. discriminate. }
    split; [intros [H|[H _]]; [auto|tauto]|].
    intros [->|H]; [now left|right; tauto].
Qed.

(** The fields of the definition, level by level. *)
Lemma JobStateFragment_levels :
  map fieldNames (levels (selections JobStateFragment_definition))
  = [ ["id"; "name"; "jobType"; "status"; "repositoryOrigin";
       "jobSpecificData"; "runs"; "status"; "ticks"; "runningCount"];
      [];
      [];
      ["lastRunKey"];
      ["cronSchedule"];
      ["id"; "runId"; "status"];
      ["id"] ].
Proof. reflexivity. Qed.

(** The composed document asks for the six fields of the view, for more than
    those six, and for every field of the three interpolated documents. *)
Lemma JOB_STATE_FRAGMENT_covers :
  exists doc,
    JOB_STATE_FRAGMENT = Normal doc
    /\ incl ownFields (documentFieldNames doc)
    /\ (In "runs" (documentFieldNames doc) /\ ~ In "runs" ownFields)
    /\ incl (documentFieldNames REPOSITORY_ORIGIN_FRAGMENT)
            (documentFieldNames doc)
    /\ incl (documentFieldNames PythonErrorFragment) (documentFieldNames doc)
    /\ incl (documentFieldNames TICK_TAG_FRAGMENT) (documentFieldNames doc).
Proof.
  eexists. split; [exact JOB_STATE_FRAGMENT_composed|].
  assert (forall part,
             incl part (REPOSITORY_ORIGIN_FRAGMENT
                          ++ PythonErrorFragment ++ TICK_TAG_FRAGMENT) ->
             incl (documentFieldNames part)
                  (documentFieldNames
                     (JobStateFragment_definition
                        :: processFragments [JobStateFragment_definition]
                             (REPOSITORY_ORIGIN_FRAGMENT
                                ++ PythonErrorFragment
                                ++ TICK_TAG_FRAGMENT)))) as Hpart.
  { intros part Hincl f Hf. unfold documentFieldNames in *.
    apply in_flat_map in Hf. destruct Hf as (d & Hd & Hf).
    apply in_flat_map. exists d. split; [|exact Hf].
    apply JOB_STATE_FRAGMENT_In. right. exact (Hincl d Hd). }
  split.
  - intros f Hf. unfold documentFieldNames. cbn [flat_map].
    apply in_or_app. left.
    unfold ownFields in Hf. simpl in Hf.
    decompose [or] Hf; subst; simpl; tauto.
  - split.
    + split.
      * unfold documentFieldNames. cbn [flat_map].
        apply in_or_app; left; simpl; tauto.
      * unfold ownFields. simpl. intros H.
        decompose [or] H; try discriminate; assumption.
    + repeat split; apply Hpart; intros d Hd;
        repeat (apply in_or_app; (left; exact Hd) || right); exact Hd.
Qed.

(** Below the top level, no selection set of the definition declares a field
    twice. *)
Lemma JobStateFragment_nested_levels_distinct :
  forall level,
    In level (tl (levels (selections JobStateFragment_definition))) ->
    hasDuplicate (fieldNames level) = false.
Proof.
  intros level H. simpl in H.
  decompose [or] H; subst; try reflexivity; contradiction.
Qed.

(** C4. The top-level selection set of the composed fragment declares
    [status] twice: its field declarations at that nesting level are not
    free of duplicates. *)
Theorem JOB_STATE_FRAGMENT_declares_status_twice :
  exists own,
    JOB_STATE_FRAGMENT
    = Normal (own :: processFragments [own]
                       (REPOSITORY_ORIGIN_FRAGMENT
                          ++ PythonErrorFragment ++ TICK_TAG_FRAGMENT))
    /\ fieldNames (selections own)
       = ["id"; "name"; "jobType"; "status"; "repositoryOrigin";
          "jobSpecificData"; "runs"; "status"; "ticks"; "runningCount"]
    /\ count_occ string_dec (fieldNames (selections own)) "status" = 2
    /\ hasDuplicate (fieldNames (selections own)) = true
    /\ ~ NoDup (fieldNames (selections own)).
Proof.
  exists JobStateFragment_definition.
  split; [exact JOB_STATE_FRAGMENT_composed|].
  split; [reflexivity|]. split; [reflexivity|]. split; [reflexivity|].
  intros H. apply (NoDup_count_occ string_dec) with (x := "status") in H.
  vm_compute in H. lia.
Qed.

(** C5, as the code has it.  The body of the fragment spreads the origin
    fragment under [repositoryOrigin] and the tick-tag fragment under
    [ticks], and spreads nothing else at any depth: the error fragment is
    not spread in it, and no selection set of the body, at any depth, has a
    field [error].  The composed document is the body's definition followed
    by the definitions of the three interpolated documents, the error
    fragment's among them, and by nothing else; a definition that is read
    more than once is kept once. *)
Theorem JOB_STATE_FRAGMENT_spreads :
  exists own rest,
    JOB_STATE_FRAGMENT = Normal (own :: rest)
    /\ option_map selectionSetOf (field "repositoryOrigin" (selections own))
       = Some [FragmentSpread "RepositoryOriginFragment"]
    /\ option_map selectionSetOf (field "ticks" (selections own))
       = Some [Field "id" [] []; FragmentSpread "TickTagFragment"]
    /\ allSpreads (selections own)
       = ["RepositoryOriginFragment"; "TickTagFragment"]
    /\ map directSpreads (levels (selections own))
       = [ []; ["RepositoryOriginFragment"]; []; []; []; [];
           ["TickTagFragment"] ]
    /\ field "error" (selections own) = None
    /\ ~ In "error" (allFieldNames (selections own))
    /\ (forall d,
          In d (own :: rest)
          <-> d = own
              \/ In d REPOSITORY_ORIGIN_FRAGMENT
              \/ In d PythonErrorFragment
              \/ In d TICK_TAG_FRAGMENT)
    /\ NoDup (own :: rest).
Proof.
  exists JobStateFragment_definition. eexists.
  split; [exact JOB_STATE_FRAGMENT_composed|].
  do 5 (split; [reflexivity|]).
  split.
  { vm_compute. intros H. decompose [or] H; try discriminate; assumption. }
  split.
  - intros d. rewrite JOB_STATE_FRAGMENT_In, !in_app_iff. tauto.
  - constructor; [|apply processFragments_NoDup].
    rewrite processFragments_In. simpl. tauto.
Qed.

(** C10. The fragment itself asks for the windowing: both [runs] and [ticks]
    are declared with the single argument [limit: 1]. *)
Theorem JOB_STATE_FRAGMENT_limits :
  exists own rest,
    JOB_STATE_FRAGMENT = Normal (own :: rest)
    /\ fragmentName own = "JobStateFragment"
    /\ option_map argumentsOf (field "runs" (selections own))
       = Some [("limit", IntValue 1)]
    /\ option_map argumentsOf (field "ticks" (selections own))
       = Some [("limit", IntValue 1)].
Proof.
  eexists. eexists. split; [exact JOB_STATE_FRAGMENT_composed|].
  repeat split.
Qed.

(* ------------------------------------------------------------------------- *)
(** ** Further properties of the projector *)

(** X1. In the view of a snapshot with a first run, every element that opens
    a new browsing context ([target="_blank"]) also carries
    [rel="noreferrer"], and the link is such an element. *)
Theorem JobRunStatus_new_context_noreferrer (jobState : JobState) run :
  index (runs jobState) 0 = Some run ->
  exists out,
    JobRunStatus jobState = Normal out
    /\ (forall n,
          In n (descendants out) ->
          prop "target" n = Some (PString "_blank") ->
          prop "rel" n = Some (PString "noreferrer"))
    /\ forall link,
         In link (elementsOfType (Component "Link") out) ->
         prop "rel" link = Some (PString "noreferrer").
Proof.
  intros H. eexists. split; [exact (JobRunStatus_first jobState run H)|].
  split.
  - intros n Hn Ht. simpl in Hn.
    decompose [or] Hn; subst; simpl in Ht; try discriminate;
      try contradiction; reflexivity.
  - intros link [<-|[]]. reflexivity.
Qed.

(** X2. The view of a snapshot with a first run is a [Group] laid out as a
    row, with spacing 4 and centred items, whose children are the status
    badge and then the link, in that order.  The badge has no children; the
    only child of the link is a [span] in the monospace font, and the only
    child of that span is the title text.  The whole view has five nodes
    however many runs the snapshot holds. *)
Theorem JobRunStatus_layout (jobState : JobState) run :
  index (runs jobState) 0 = Some run ->
  exists out badge link label,
    JobRunStatus jobState = Normal out
    /\ out = Element (Component "Group")
               [ ("direction", PString "row"); ("spacing", PNumber 4);
                 ("alignItems", PString "center") ]
               [badge; link]
    /\ badge = Element (Component "RunStatus")
                 [("status", PString (run_status run))] []
    /\ hasType (Component "Link") link = true
    /\ descendants link
       = [link; label; Text (titleForRun {| arg_runId := runId run |})]
    /\ prop "style" label
       = Some (PStyle [("fontFamily", FontFamily_monospace)])
    /\ length (descendants out) = 5
    /\ (exists props, link = Element (Component "Link") props [label])
    /\ label
       = Element (Host "span")
           [("style", PStyle [("fontFamily", FontFamily_monospace)])]
           [Text (titleForRun {| arg_runId := runId run |})].
Proof.
  intros H. do 4 eexists.
  split; [exact (JobRunStatus_first jobState run H)|].
  do 6 (split; [reflexivity|]).
  split; [eexists|]; reflexivity.
Qed.

(** X3. Two snapshots give the same view exactly when they agree on whether
    there is a first run and, if there is, on its status and its run id.  In
    particular the [id] of a run never shows, the view of a run is never the
    empty state, and runs with different run ids never share a view. *)
Theorem JobRunStatus_eq_iff (a b : JobState) :
  JobRunStatus a = JobRunStatus b <-> viewKey a = viewKey b.
Proof.
  unfold viewKey.
  destruct (runs a) as [|ra la] eqn:Ea; destruct (runs b) as [|rb lb] eqn:Eb;
    try rewrite (JobRunStatus_nil a Ea);
    try rewrite (JobRunStatus_nil b Eb);
    try rewrite (JobRunStatus_cons a ra la Ea);
    try rewrite (JobRunStatus_cons b rb lb Eb);
    simpl; split; intros H; try reflexivity; try discriminate.
  - injection H as Hs Hl _. now rewrite Hs, Hl.
  - injection H as Hs Hl. now rewrite Hs, Hl.
Qed.

(** X5. The text a reader sees in the view is "None" when the snapshot has
    no run, and the title of the first run's run id otherwise: the status
    badge contributes no text of its own to the descriptor. *)
Theorem JobRunStatus_visible_text (jobState : JobState) :
  exists out,
    JobRunStatus jobState = Normal out
    /\ textContent out
       = match index (runs jobState) 0 with
         | Some run => titleForRun {| arg_runId := runId run |}
         | None => "None"
         end.
Proof.
  destruct (runs jobState) as [|run later] eqn:E.
  - exists emptyState. split; [exact (JobRunStatus_nil jobState E)|].
    reflexivity.
  - eexists. split; [exact (JobRunStatus_cons jobState run later E)|].
    reflexivity.
Qed.

(* ------------------------------------------------------------------------- *)
(** ** Further properties of the fragment *)

Lemma hasDuplicate_false_NoDup (xs : list string) :
  hasDuplicate xs = false -> NoDup xs.
Proof.
  induction xs as [|x rest IH]; simpl; intros H; [constructor|].
  apply orb_false_elim in H. destruct H as [Hx Hrest].
  constructor; [|exact (IH Hrest)].
  intros Hin.
  assert (existsb (String.eqb x) rest = true) as Ht.
  { apply existsb_exists. exists x. split; [exact Hin|apply String.eqb_refl]. }
  rewrite Ht in Hx. discriminate.
Qed.

(** X6. The composed document starts with the definition of
    [JobStateFragment] on [JobState].  After it come the definitions of the
    three interpolated documents and nothing else, and no definition occurs
    twice: one that the interpolated documents hold more than once, or that
    is the view's own, is kept once.  When the interpolated definitions are
    all different, and different from the view's own, they follow unchanged,
    in the order origin, python error, tick tag. *)
Theorem JOB_STATE_FRAGMENT_definitions :
  exists own rest,
    JOB_STATE_FRAGMENT = Normal (own :: rest)
    /\ fragmentName own = "JobStateFragment"
    /\ onType own = "JobState"
    /\ NoDup (own :: rest)
    /\ (forall d,
          In d rest
          <-> In d (REPOSITORY_ORIGIN_FRAGMENT
                      ++ PythonErrorFragment ++ TICK_TAG_FRAGMENT)
              /\ d <> own)
    /\ (NoDup (own :: REPOSITORY_ORIGIN_FRAGMENT
                   ++ PythonErrorFragment ++ TICK_TAG_FRAGMENT) ->
        rest = REPOSITORY_ORIGIN_FRAGMENT
                 ++ PythonErrorFragment ++ TICK_TAG_FRAGMENT).
Proof.
  exists JobStateFragment_definition. eexists.
  split; [exact JOB_STATE_FRAGMENT_composed|].
  split; [reflexivity|]. split; [reflexivity|].
  split.
  { constructor; [|apply processFragments_NoDup].
    rewrite processFragments_In. simpl. tauto. }
  split.
  - intros d. rewrite processFragments_In. simpl.
    split; [intros [H Hn]; split; [exact H|]|intros [H Hn]; split; [exact H|]].
    + intros E. apply Hn. left. symmetry. exact E.
    + intros [E|[]]. apply Hn. symmetry. exact E.
  - intros Hnd. inversion Hnd as [|? ? Hown Hrest]; subst.
    apply processFragments_fresh; [exact Hrest|].
    intros d Hd [E|[]]. subst d. contradiction.
Qed.


(** X8. When the three interpolated documents define the two fragments the
    body spreads, [RepositoryOriginFragment] and [TickTagFragment], and
    every fragment they spread themselves, the composed document is closed:
    each fragment spread anywhere in it is defined in it. *)
Theorem JOB_STATE_FRAGMENT_closed :
  In "RepositoryOriginFragment"
     (definedFragments
        (REPOSITORY_ORIGIN_FRAGMENT
           ++ PythonErrorFragment ++ TICK_TAG_FRAGMENT)) ->
  In "TickTagFragment"
     (definedFragments
        (REPOSITORY_ORIGIN_FRAGMENT
           ++ PythonErrorFragment ++ TICK_TAG_FRAGMENT)) ->
  incl (documentSpreads
          (REPOSITORY_ORIGIN_FRAGMENT
             ++ PythonErrorFragment ++ TICK_TAG_FRAGMENT))
       (definedFragments
          (REPOSITORY_ORIGIN_FRAGMENT
             ++ PythonErrorFragment ++ TICK_TAG_FRAGMENT)) ->
  exists doc,
    JOB_STATE_FRAGMENT = Normal doc
    /\ incl (documentSpreads doc) (definedFragments doc).
Proof.
  set (nested := REPOSITORY_ORIGIN_FRAGMENT
                   ++ PythonErrorFragment ++ TICK_TAG_FRAGMENT).
  intros Horigin Htick Hnested. eexists.
  split; [exact JOB_STATE_FRAGMENT_composed|]. fold nested.
  assert (forall x,
             In x (definedFragments nested) ->
             In x (definedFragments
                     (JobStateFragment_definition
                        :: processFragments [JobStateFragment_definition]
                             nested))) as Hdefined.
  { intros x Hx. unfold definedFragments in *.
    apply in_map_iff in Hx. destruct Hx as (d & <- & Hd).
    apply in_map. apply JOB_STATE_FRAGMENT_In. now right. }
  intros x Hx. unfold documentSpreads in Hx.
  apply in_flat_map in Hx. destruct Hx as (d & Hd & Hx).
  apply JOB_STATE_FRAGMENT_In in Hd. destruct Hd as [->|Hd].
  - apply Hdefined. simpl in Hx.
    decompose [or] Hx; subst; try assumption; contradiction.
  - apply Hdefined, Hnested. unfold documentSpreads.
    apply in_flat_map. exists d. now split.
Qed.

(** X10. [status] is the only field the body declares twice: with it set
    aside, no selection set of the body, at any nesting level, declares a
    field twice, and below the top level none does as it stands. *)
Theorem JOB_STATE_FRAGMENT_only_status_repeats :
  exists own rest,
    JOB_STATE_FRAGMENT = Normal (own :: rest)
    /\ (forall level,
          In level (levels (selections own)) ->
          NoDup (remove string_dec "status" (fieldNames level)))
    /\ forall level,
         In level (tl (levels (selections own))) ->
         NoDup (fieldNames level).
Proof.
  do 2 eexists. split; [exact JOB_STATE_FRAGMENT_composed|].
  split; intros level H; apply hasDuplicate_false_NoDup;
    simpl in H; decompose [or] H; subst; try contradiction;
    vm_compute; reflexivity.
Qed.

End Collaborators.

(* ------------------------------------------------------------------------- *)
(** ** The statements on the sample inputs *)

Lemma JobRunStatus_shows_first_run_sample :
  index (runs (sampleJob [sampleRun; olderRun])) 0 = Some sampleRun
  /\ exists out badge link,
       JobRunStatus unit unit "#a7b6c2" "monospace" sampleTitle
                    (sampleJob [sampleRun; olderRun]) = Normal out
       /\ In badge (descendants out)
       /\ hasType (Component "RunStatus") badge = true
       /\ prop "status" badge = Some (PString "SUCCESS")
       /\ In link (descendants out)
       /\ hasType (Component "Link") link = true
       /\ prop "to" link = Some (PString "/instance/runs/abc123")
       /\ textContent link = "abc".
Proof.
  split; [reflexivity|].
  apply (JobRunStatus_shows_first_run unit unit "#a7b6c2" "monospace"
           sampleTitle (sampleJob [sampleRun; olderRun]) sampleRun).
  reflexivity.
Defined.

Lemma JobRunStatus_empty_state_sample :
  runs (otherJob []) = []
  /\ JobRunStatus unit unit "#a7b6c2" "monospace" sampleTitle (otherJob [])
     = Normal (Element (Host "span")
                 [("style", PStyle [("color", "#a7b6c2")])] [Text "None"]).
Proof.
  split; [reflexivity|].
  apply (JobRunStatus_empty_state unit unit "#a7b6c2" "monospace" sampleTitle
           (otherJob [])).
  reflexivity.
Defined.

Lemma JobRunStatus_ignores_later_runs_sample :
  1 < length (runs (sampleJob [sampleRun; olderRun]))
  /\ JobRunStatus unit unit "#a7b6c2" "monospace" sampleTitle
                  (sampleJob [sampleRun; olderRun])
     = JobRunStatus unit unit "#a7b6c2" "monospace" sampleTitle
                    (withRuns (sampleJob [sampleRun; olderRun]) [sampleRun]).
Proof.
  split; [simpl; lia|].
  apply (JobRunStatus_ignores_later_runs unit unit "#a7b6c2" "monospace"
           sampleTitle (sampleJob [sampleRun; olderRun]) sampleRun).
  - simpl; lia.
  - reflexivity.
Defined.

Lemma JobRunStatus_link_new_context_sample :
  index (runs (sampleJob [sampleRun])) 0 = Some sampleRun
  /\ exists out,
       JobRunStatus unit unit "#a7b6c2" "monospace" sampleTitle
                    (sampleJob [sampleRun]) = Normal out
       /\ elementsOfType (Component "Link") out <> []
       /\ elementsOfType (Host "a") out = []
       /\ forall link,
            In link (elementsOfType (Component "Link") out) ->
            prop "target" link = Some (PString "_blank").
Proof.
  split; [reflexivity|].
  apply (JobRunStatus_link_new_context unit unit "#a7b6c2" "monospace"
           sampleTitle (sampleJob [sampleRun]) sampleRun).
  reflexivity.
Defined.

Lemma JobRunStatus_link_target_sample :
  index (runs (otherJob [olderRun; sampleRun])) 0 = Some olderRun
  /\ exists out link,
       JobRunStatus unit unit "#a7b6c2" "monospace" sampleTitle
                    (otherJob [olderRun; sampleRun]) = Normal out
       /\ elementsOfType (Component "Link") out = [link]
       /\ prop "to" link = Some (PString "/instance/runs/9f8e7d").
Proof.
  split; [reflexivity|].
  apply (JobRunStatus_link_target unit unit "#a7b6c2" "monospace"
           sampleTitle (otherJob [olderRun; sampleRun]) olderRun).
  reflexivity.
Defined.

Lemma JobRunStatus_depends_only_on_runs_sample :
  runs (sampleJob [sampleRun]) = runs (otherJob [sampleRun])
  /\ sampleJob [sampleRun] <> otherJob [sampleRun]
  /\ JobRunStatus unit unit "#a7b6c2" "monospace" sampleTitle
                  (sampleJob [sampleRun])
     = JobRunStatus unit unit "#a7b6c2" "monospace" sampleTitle
                    (otherJob [sampleRun]).
Proof.
  split; [reflexivity|]. split; [discriminate|].
  apply (JobRunStatus_depends_only_on_runs unit unit "#a7b6c2" "monospace"
           sampleTitle (sampleJob [sampleRun]) (otherJob [sampleRun])).
  reflexivity.
Defined.

(** C5, as stated, fails.  On the sample collaborators the body of the
    composed fragment does not spread each of the three interpolated
    fragments: the error fragment is spread nowhere in the body, at any
    depth.  Nor does the composition see to it that the error fragment is
    spread elsewhere: with a tick-tag document that spreads nothing, no
    definition of the composed document spreads it. *)
Lemma JOB_STATE_FRAGMENT_body_omits_error_spread :
  ~ (exists own rest,
       JOB_STATE_FRAGMENT sampleOrigin samplePythonError sampleTickTag
       = Normal (own :: rest)
       /\ spreadsAll (selections own) sampleOrigin = true
       /\ spreadsAll (selections own) sampleTickTag = true
       /\ spreadsAll (selections own) samplePythonError = true)
  /\ ~ (exists doc,
          JOB_STATE_FRAGMENT sampleOrigin samplePythonError plainTickTag
          = Normal doc
          /\ In "PythonErrorFragment" (documentSpreads doc)).
Proof.
  split.
  - intros (own & rest & E & _ & _ & H).
    rewrite JOB_STATE_FRAGMENT_composed in E.
    injection E as <- _. vm_compute in H. discriminate.
  - intros (doc & E & H).
    assert (JOB_STATE_FRAGMENT sampleOrigin samplePythonError plainTickTag
            = Normal (JobStateFragment_definition
                        :: sampleOrigin ++ samplePythonError ++ plainTickTag))
      as R by (vm_compute; reflexivity).
    rewrite R in E. injection E as <-. vm_compute in H.
    decompose [or] H; try discriminate; assumption.
Qed.

(* ------------------------------------------------------------------------- *)
(** ** The title formatter *)

(** X4. The projector consults the title formatter for the run id of the
    first run and for nothing else: two formatters that agree there give the
    same view, and when the snapshot has no run any two formatters do. *)
Theorem JobRunStatus_title_of_first_run_only
  (R T : Type) (gray4 monospace : string)
  (title1 title2 : RunTitleArg -> string) (jobState : JobState R T) :
  (forall run,
     index (runs jobState) 0 = Some run ->
     title1 {| arg_runId := runId run |} = title2 {| arg_runId := runId run |}) ->
  JobRunStatus R T gray4 monospace title1 jobState
  = JobRunStatus R T gray4 monospace title2 jobState.
Proof.
  intros H. destruct (runs jobState) as [|run later] eqn:E.
  - now rewrite !(JobRunStatus_nil _ _ _ _ _ jobState E).
  - rewrite !(JobRunStatus_cons _ _ _ _ _ jobState run later E).
    unfold runState. rewrite (H run); reflexivity.
Qed.

Lemma JobRunStatus_new_context_noreferrer_sample :
  index (runs (sampleJob [sampleRun])) 0 = Some sampleRun
  /\ exists out,
       JobRunStatus unit unit "#a7b6c2" "monospace" sampleTitle
                    (sampleJob [sampleRun]) = Normal out
       /\ (forall n,
             In n (descendants out) ->
             prop "target" n = Some (PString "_blank") ->
             prop "rel" n = Some (PString "noreferrer"))
       /\ forall link,
            In link (elementsOfType (Component "Link") out) ->
            prop "rel" link = Some (PString "noreferrer").
Proof.
  split; [reflexivity|].
  apply (JobRunStatus_new_context_noreferrer unit unit "#a7b6c2" "monospace"
           sampleTitle (sampleJob [sampleRun]) sampleRun).
  reflexivity.
Defined.

Lemma JobRunStatus_layout_sample :
  index (runs (otherJob [olderRun; sampleRun])) 0 = Some olderRun
  /\ exists out badge link label,
       JobRunStatus unit unit "#a7b6c2" "monospace" sampleTitle
                    (otherJob [olderRun; sampleRun]) = Normal out
       /\ out = Element (Component "Group")
                  [ ("direction", PString "row"); ("spacing", PNumber 4);
                    ("alignItems", PString "center") ]
                  [badge; link]
       /\ badge = Element (Component "RunStatus")
                    [("status", PString "FAILURE")] []
       /\ hasType (Component "Link") link = true
       /\ descendants link = [link; label; Text "9f8"]
       /\ prop "style" label = Some (PStyle [("fontFamily", "monospace")])
       /\ length (descendants out) = 5
       /\ (exists props, link = Element (Component "Link") props [label])
       /\ label
          = Element (Host "span")
              [("style", PStyle [("fontFamily", "monospace")])]
              [Text "9f8"].
Proof.
  split; [reflexivity|].
  apply (JobRunStatus_layout unit unit "#a7b6c2" "monospace" sampleTitle
           (otherJob [olderRun; sampleRun]) olderRun).
  reflexivity.
Defined.

Lemma JobRunStatus_title_of_first_run_only_sample :
  sampleTitle {| arg_runId := "9f8e7d" |}
    <> otherTitle {| arg_runId := "9f8e7d" |}
  /\ JobRunStatus unit unit "#a7b6c2" "monospace" sampleTitle
                  (sampleJob [sampleRun; olderRun])
     = JobRunStatus unit unit "#a7b6c2" "monospace" otherTitle
                    (sampleJob [sampleRun; olderRun]).
Proof.
  split; [discriminate|].
  apply (JobRunStatus_title_of_first_run_only unit unit "#a7b6c2" "monospace"
           sampleTitle otherTitle (sampleJob [sampleRun; olderRun])).
  intros run H. injection H as <-. reflexivity.
Defined.


Lemma JOB_STATE_FRAGMENT_closed_sample :
  documentSpreads (sampleOrigin ++ samplePythonError ++ sampleTickTag)
  = ["PythonErrorFragment"]
  /\ exists doc,
       JOB_STATE_FRAGMENT sampleOrigin samplePythonError sampleTickTag
       = Normal doc
       /\ incl (documentSpreads doc) (definedFragments doc).
Proof.
  split; [reflexivity|].
  apply (JOB_STATE_FRAGMENT_closed
           sampleOrigin samplePythonError sampleTickTag).
  - simpl. tauto.
  - simpl. tauto.
  - intros x H. simpl in H. simpl. tauto.
Defined.

(** Two interpolated documents that hold the same definition: the composed
    document keeps it once, so it has four definitions and not five. *)
Lemma JOB_STATE_FRAGMENT_definitions_sample :
  JOB_STATE_FRAGMENT sampleOrigin samplePythonError
                     (sampleTickTag ++ samplePythonError)
  = Normal (JobStateFragment_definition
              :: sampleOrigin ++ samplePythonError ++ sampleTickTag)
  /\ exists own rest,
       JOB_STATE_FRAGMENT sampleOrigin samplePythonError
                          (sampleTickTag ++ samplePythonError)
       = Normal (own :: rest)
       /\ fragmentName own = "JobStateFragment"
       /\ onType own = "JobState"
       /\ NoDup (own :: rest)
       /\ (forall d,
             In d rest
             <-> In d (sampleOrigin ++ samplePythonError
                         ++ sampleTickTag ++ samplePythonError)
                 /\ d <> own)
       /\ (NoDup (own :: sampleOrigin ++ samplePythonError
                      ++ sampleTickTag ++ samplePythonError) ->
           rest = sampleOrigin ++ samplePythonError
                    ++ sampleTickTag ++ samplePythonError).
Proof.
  split; [vm_compute; reflexivity|].
  apply (JOB_STATE_FRAGMENT_definitions
           sampleOrigin samplePythonError (sampleTickTag ++ samplePythonError)).
Defined.

(** The sample documents are what their texts parse to. *)
Lemma sample_documents_parse :
  parse "fragment RepositoryOriginFragment on RepositoryOrigin {
           repositoryLocationName
           repositoryName
         }" = Some sampleOrigin
  /\ parse "fragment PythonErrorFragment on PythonError { message, stack }"
     = Some samplePythonError
  /\ parse "fragment TickTagFragment on JobTick {
              timestamp
              error { ...PythonErrorFragment }
            }" = Some sampleTickTag.
Proof. repeat split; vm_compute; reflexivity. Qed.

End JobUtils.
